(** * NaN-boxing codec of package [nanboxing] (boxing.go)

    A [Box] is a Go [float64]; every operation of the package reads or
    writes its 64-bit pattern through [unsafe.Pointer].  The development
    models a box by that pattern, an integer in [0, 2^64), and the
    pointers the reference constructors take as addresses into an explicit
    memory. *)

From Stdlib Require Import ZArith Lia Bool List.
From stdpp Require Import gmap strings.

Local Open Scope Z_scope.

(** ** Machine integers: Go's conversions and shifts, wrap-around written out *)

Module Machine.

Definition uint64 (z : Z) : Z := z mod 2 ^ 64.
Definition uint32 (z : Z) : Z := z mod 2 ^ 32.
Definition uint8 (z : Z) : Z := z mod 2 ^ 8.

(** [int32(u)]: keep the low 32 bits, read them as two's complement. *)
Definition int32 (z : Z) : Z := (z + 2 ^ 31) mod 2 ^ 32 - 2 ^ 31.

(** [x << n] on a [uint64]: bits shifted past bit 63 are lost. *)
Definition shl64 (x n : Z) : Z := uint64 (Z.shiftl x n).

(** [x >> n] on a [uint64]. *)
Definition shr64 (x n : Z) : Z := Z.shiftr x n.

Definition is_uint64 (z : Z) : Prop := 0 <= z < 2 ^ 64.
Definition is_int32 (z : Z) : Prop := - 2 ^ 31 <= z < 2 ^ 31.

Definition MinInt32 : Z := - 2 ^ 31.
Definition MaxInt32 : Z := 2 ^ 31 - 1.

End Machine.

(** ** IEEE-754 binary64, by bit pattern: what [==] and [!=] do on [float64] *)

Module Float64.

Definition exponent (f : Z) : Z := Z.land (Z.shiftr f 52) 0x7FF.
Definition fraction (f : Z) : Z := Z.land f 0xFFFFFFFFFFFFF.

(** Exponent all ones and a non-zero fraction: quiet and signaling NaNs,
    of either sign. *)
Definition is_nan (f : Z) : bool :=
  (exponent f =? 0x7FF) && negb (fraction f =? 0).

Definition is_zero (f : Z) : bool :=
  (exponent f =? 0) && (fraction f =? 0).

(** Go's [x == y]: a NaN equals nothing, the two zeros are equal, every
    other value equals exactly itself. *)
Definition eqb (x y : Z) : bool :=
  if is_nan x || is_nan y then false
  else if is_zero x && is_zero y then true
  else x =? y.

(** Go's [x != y]. *)
Definition neqb (x y : Z) : bool := negb (eqb x y).

End Float64.

(** [math.IsNaN] of the Go library: [return f != f]. *)
Definition math_IsNaN (f : Z) : bool := Float64.neqb f f.

(** ** The package *)

Import Machine.

(** [type Box float64], as its bit pattern. *)
Definition Box : Type := Z.

(** [type Tag uint64]; the method [Tag] keeps the name. *)
Definition TagType : Type := Z.

Definition TagNumber : TagType := 0x1.
Definition tagString : TagType := 0x2.
Definition TagBool : TagType := 0x3.
Definition TagArray : TagType := 0x4.
Definition TagObject : TagType := 0x5.
Definition TagNull : TagType := 0xF.

Definition TagMask : Z := 0xF.
Definition NaNMask : Z := 0x7FF8000000000000.
Definition PayloadMask : Z := 0x00007FFFFFFFFFFF.
Definition TagShift : Z := 47.

(** The 64 bits stored at [x], read as a [uint64]. *)
Definition raw (x : Box) : Z := x.

Definition Tag (x : Box) : TagType :=
  Z.land (shr64 (raw x) TagShift) TagMask.

Definition Payload (x : Box) : Z := Z.land (raw x) PayloadMask.

(** The mutators write [*x]; each is given as the new content of [*x]. *)
Definition SetTag (t : TagType) (x : Box) : Box :=
  Z.lor (Z.lor NaNMask (shl64 (uint64 t) TagShift))
        (Z.land (Payload x) PayloadMask).

Definition SetPayload (u : Z) (x : Box) : Box :=
  Z.lor (Z.lor NaNMask (shl64 (uint64 (Tag x)) TagShift))
        (Z.land u PayloadMask).

(** [Box(f)]: [Box] and [float64] share their representation. *)
Definition NewFloat (f : Z) : Box := f.

Definition ToFloat (x : Box) : Z := x.

Definition IsFloat64 (x : Box) : bool := negb (math_IsNaN x).

(** [n] is an [int32]; the source reads its 32 bits back as a [uint32]. *)
Definition NewNumber (n : Z) : Box :=
  let ui := uint32 n in
  Z.lor (Z.lor NaNMask (shl64 (uint64 TagNumber) TagShift))
        (Z.land (uint64 ui) PayloadMask).

Definition ToNumber (x : Box) : Z := int32 (Payload x).

Definition IsNumber (x : Box) : bool :=
  negb (IsFloat64 x) && (Tag x =? TagNumber).

(** A Go [bool] is one byte, 1 for [true] and 0 for [false]. *)
Definition bool_byte (b : bool) : Z := if b then 1 else 0.

Definition NewBool (b : bool) : Box :=
  let ui := uint8 (bool_byte b) in
  Z.lor (Z.lor NaNMask (shl64 (uint64 TagBool) TagShift))
        (Z.land (uint64 ui) PayloadMask).

Definition ToBool (x : Box) : bool := negb (0 =? Payload x).

Definition IsBool (x : Box) : bool :=
  negb (IsFloat64 x) && (Tag x =? TagBool).

Definition IsString (x : Box) : bool :=
  negb (IsFloat64 x) && (Tag x =? tagString).

Definition IsArray (x : Box) : bool :=
  negb (IsFloat64 x) && (Tag x =? TagArray).

Definition IsObject (x : Box) : bool :=
  negb (IsFloat64 x) && (Tag x =? TagObject).

Definition NewNull : Box :=
  Z.lor (Z.lor NaNMask (shl64 (uint64 TagNull) TagShift))
        (Z.land 0 PayloadMask).

Definition IsNull (x : Box) : bool :=
  negb (IsFloat64 x) && (Tag x =? TagNull).

Definition IsPointer (x : Box) : bool :=
  negb (IsFloat64 x) && ((Tag x =? TagArray) || (Tag x =? TagObject)).

Definition ToPointer (x : Box) : Z := Payload x.

(** ** Memory reached through the reference payloads

    The reference constructors box the address of their own parameter;
    the accessors read a value of the expected type back from the address
    in the payload.  The memory is explicit: variables whose address has
    been taken, backing arrays of slices, tables of maps.  A parameter is
    passed by value: its slot holds it during the call and is gone when
    the call returns, and the [uintptr] in the box keeps nothing alive. *)

(** [type Array []Box]: a slice value is its header. *)
Record Array : Type := mkArray {
  array_data : Z;
  array_len : Z;
  array_cap : Z
}.

(** [type Object map[string]Box]: a map value is the address of its table. *)
Definition Object : Type := Z.

Inductive Cell : Type :=
| StringVar (s : string)
| ArrayVar (a : Array)
| ObjectVar (o : Object)
| Elems (l : list Box)
| Table (t : gmap string Box).

Abbreviation Memory := (gmap Z Cell).

(** In the three constructors [p] is the address the parameter lives at,
    [uintptr(unsafe.Pointer(&s))]; the runtime chooses it.  [during] is
    memory while the call runs; the slot is released on return. *)
Definition NewString (p : Z) (s : string) (m : Memory) : Box * Memory :=
  let during : Memory := <[p := StringVar s]> m in
  (Z.lor (Z.lor NaNMask (shl64 (uint64 tagString) TagShift))
         (Z.land (uint64 p) PayloadMask),
   delete p during).

(** A read of the wrong kind of cell, or of no cell, has no defined
    result in Go; it is [None] here. *)
Definition ToString (x : Box) (m : Memory) : option string :=
  match m !! Payload x with
  | Some (StringVar s) => Some s
  | _ => None
  end.

Definition NewArray (p : Z) (a : Array) (m : Memory) : Box * Memory :=
  let during : Memory := <[p := ArrayVar a]> m in
  (Z.lor (Z.lor NaNMask (shl64 (uint64 TagArray) TagShift))
         (Z.land (uint64 p) PayloadMask),
   delete p during).

Definition ToArray (x : Box) (m : Memory) : option Array :=
  match m !! Payload x with
  | Some (ArrayVar a) => Some a
  | _ => None
  end.

Definition NewObject (p : Z) (o : Object) (m : Memory) : Box * Memory :=
  let during : Memory := <[p := ObjectVar o]> m in
  (Z.lor (Z.lor NaNMask (shl64 (uint64 TagObject) TagShift))
         (Z.land (uint64 p) PayloadMask),
   delete p during).

Definition ToObject (x : Box) (m : Memory) : option Object :=
  match m !! Payload x with
  | Some (ObjectVar o) => Some o
  | _ => None
  end.

(** Go's [a[i]], [o[k]] and [len(o)], as the tests use them. *)
Definition index (m : Memory) (a : Array) (i : Z) : option Box :=
  if (0 <=? i) && (i <? array_len a) then
    match m !! array_data a with
    | Some (Elems l) => l !! Z.to_nat i
    | _ => None
    end
  else None.

Definition map_index (m : Memory) (o : Object) (k : string) : option Box :=
  match m !! (o : Z) with
  | Some (Table t) => Some (default 0 (t !! k))
  | _ => None
  end.

Definition map_len (m : Memory) (o : Object) : option Z :=
  match m !! (o : Z) with
  | Some (Table t) => Some (Z.of_nat (size t))
  | _ => None
  end.

(** ** Proof devices *)

(** Every constructor and mutator assembles its result in this shape. *)
Definition pack (t u : Z) : Z :=
  Z.lor (Z.lor NaNMask (shl64 (uint64 t) TagShift)) (Z.land u PayloadMask).

(** The seven type predicates. *)
Definition predicates (x : Box) : list bool :=
  [IsFloat64 x; IsNumber x; IsBool x; IsString x; IsArray x; IsObject x;
   IsNull x].

Fixpoint count_true (l : list bool) : nat :=
  match l with
  | [] => 0%nat
  | b :: l' => ((if b then 1 else 0) + count_true l')%nat
  end.

(** The boxes the constructors return. *)
Inductive constructed : Box -> Prop :=
| constructed_float f :
    is_uint64 f -> math_IsNaN f = false -> constructed (NewFloat f)
| constructed_number n : is_int32 n -> constructed (NewNumber n)
| constructed_bool b : constructed (NewBool b)
| constructed_string p s (m : Memory) :
    is_uint64 p -> constructed (NewString p s m).1
| constructed_array p a (m : Memory) :
    is_uint64 p -> constructed (NewArray p a m).1
| constructed_object p o (m : Memory) :
    is_uint64 p -> constructed (NewObject p o m).1
| constructed_null : constructed NewNull.

(** A float that collides with the boxed encoding, in the words of the
    specification: a NaN whose bits carry the whole NaN mask, the tag bits
    lying next to it. *)
Definition collides_with_boxed_encoding (f : Z) : bool :=
  Float64.is_nan f && (Z.land f NaNMask =? NaNMask).

(** A signaling NaN: exponent all ones, quiet bit clear, fraction 1. *)
Definition signaling_NaN : Z := 0x7FF0000000000001.

(** The address fits the payload: at most 47 significant bits, as the
    comment above the masks of the source has it for x86-64. *)
Definition fits_payload (p : Z) : Prop := 0 <= p <= PayloadMask.

(** The data of [TestObject] and [TestArray]: a table and a backing array
    already in memory, and the slots the parameters of the constructors
    occupy. *)
Definition test_table : Z := 0xC000012000.
Definition test_elems : Z := 0xC000014000.
Definition test_slot : Z := 0xC00003E750.

Definition test_memory : Memory :=
  <[test_table := Table (<["key1"%string := NewNumber 1]>
                          (<["key2"%string := NewNumber 2]> ∅))]>
  (<[test_elems := Elems [NewNumber 1; NewNumber 2]]> ∅).

Definition arraySource : Array :=
  {| array_data := test_elems; array_len := 2; array_cap := 2 |}.

Definition objectSource : Object := test_table.

(** The six tags the source names. *)
Definition documented_tag (t : TagType) : bool :=
  (t =? TagNumber) || (t =? tagString) || (t =? TagBool)
  || (t =? TagArray) || (t =? TagObject) || (t =? TagNull).

(** The NaN of Go's [math.NaN()], the constant named in the message of
    [TestTag]. *)
Definition go_NaN : Z := 0x7FF8000000000001.

(** ** Theorems *)

(** *** Bits of the masks and of the machine operations *)

Lemma testbit_PayloadMask (i : Z) :
  0 <= i -> Z.testbit PayloadMask i = (i <? 47).
Proof.
  intros Hi. change PayloadMask with (Z.ones 47).
  now rewrite Z.testbit_ones_nonneg by lia.
Qed.

Lemma testbit_TagMask (i : Z) : 0 <= i -> Z.testbit TagMask i = (i <? 4).
Proof.
  intros Hi. change TagMask with (Z.ones 4).
  now rewrite Z.testbit_ones_nonneg by lia.
Qed.

Lemma testbit_NaNMask (i : Z) :
  0 <= i -> Z.testbit NaNMask i = (51 <=? i) && (i <? 63).
Proof.
  intros Hi. change NaNMask with (Z.shiftl (Z.ones 12) 51).
  rewrite Z.shiftl_spec by lia.
  destruct (Z.leb_spec 51 i); simpl.
  - rewrite Z.testbit_ones_nonneg by lia.
    destruct (Z.ltb_spec (i - 51) 12), (Z.ltb_spec i 63); trivial; lia.
  - apply Z.testbit_neg_r. lia.
Qed.

Lemma testbit_uint64 (z i : Z) :
  0 <= i -> Z.testbit (uint64 z) i = (i <? 64) && Z.testbit z i.
Proof. intros Hi. unfold uint64. now rewrite Z.testbit_mod_pow2 by lia. Qed.

Lemma testbit_shl64 (x n i : Z) :
  0 <= i -> Z.testbit (shl64 x n) i = (i <? 64) && Z.testbit x (i - n).
Proof.
  intros Hi. unfold shl64. rewrite testbit_uint64 by lia.
  now rewrite Z.shiftl_spec by lia.
Qed.

Lemma testbit_pack (t u i : Z) :
  0 <= i ->
  Z.testbit (pack t u) i =
    if i <? 47 then Z.testbit u i
    else if i <? 51 then Z.testbit t (i - 47)
    else if i <? 63 then true
    else (i <? 64) && Z.testbit t (i - 47).
Proof.
  intros Hi. unfold pack, TagShift.
  rewrite !Z.lor_spec, Z.land_spec, testbit_NaNMask, testbit_shl64,
    testbit_PayloadMask by lia.
  destruct (Z.ltb_spec i 47).
  - rewrite (Z.testbit_neg_r _ (i - 47)) by lia.
    destruct (Z.leb_spec 51 i); [lia|].
    now rewrite andb_false_r, andb_true_r.
  - rewrite andb_false_r, orb_false_r.
    destruct (Z.ltb_spec i 64); simpl.
    + rewrite testbit_uint64 by lia.
      destruct (Z.ltb_spec (i - 47) 64); [simpl|lia].
      destruct (Z.ltb_spec i 51), (Z.leb_spec 51 i); try lia; simpl.
      * reflexivity.
      * destruct (Z.ltb_spec i 63); reflexivity.
    + destruct (Z.ltb_spec i 51), (Z.ltb_spec i 63), (Z.leb_spec 51 i);
        try lia; reflexivity.
Qed.

Lemma int32_uint32 (n : Z) : is_int32 n -> int32 (uint32 n) = n.
Proof.
  unfold is_int32, int32, uint32. intros Hn.
  rewrite Zplus_mod_idemp_l.
  rewrite Z.mod_small by lia. lia.
Qed.

(** *** What a packed word holds *)

Lemma Payload_pack (t u : Z) : Payload (pack t u) = Z.land u PayloadMask.
Proof.
  unfold Payload, raw. apply Z.bits_inj'. intros i Hi.
  rewrite !Z.land_spec, testbit_pack, testbit_PayloadMask by lia.
  destruct (Z.ltb_spec i 47); [reflexivity|].
  now rewrite !andb_false_r.
Qed.

Lemma Tag_pack (t u : Z) : Tag (pack t u) = t mod 16.
Proof.
  unfold Tag, raw, shr64, TagShift. change 16 with (2 ^ 4).
  apply Z.bits_inj'. intros i Hi.
  rewrite Z.land_spec, Z.shiftr_spec, testbit_pack, testbit_TagMask,
    Z.testbit_mod_pow2 by lia.
  replace (i + 47 - 47) with i by lia.
  destruct (Z.ltb_spec (i + 47) 47); [lia|].
  destruct (Z.ltb_spec i 4); simpl.
  - destruct (Z.ltb_spec (i + 47) 51); [apply andb_true_r|lia].
  - apply andb_false_r.
Qed.

Lemma NaNMask_pack (t u : Z) : Z.land (pack t u) NaNMask = NaNMask.
Proof.
  apply Z.bits_inj'. intros i Hi.
  rewrite Z.land_spec, testbit_pack, testbit_NaNMask by lia.
  destruct (Z.leb_spec 51 i), (Z.ltb_spec i 63); simpl;
    rewrite ?andb_false_r; try reflexivity.
  destruct (Z.ltb_spec i 47), (Z.ltb_spec i 51); lia.
Qed.

(** [f != f] holds of the NaNs and of nothing else. *)
Lemma math_IsNaN_is_nan (f : Z) : math_IsNaN f = Float64.is_nan f.
Proof.
  unfold math_IsNaN, Float64.neqb, Float64.eqb.
  destruct (Float64.is_nan f); cbn [orb negb]; [reflexivity|].
  destruct (Float64.is_zero f); cbn [andb negb]; [reflexivity|].
  now rewrite Z.eqb_refl.
Qed.

(** A word with every bit of the NaN mask set is a NaN. *)
Lemma is_nan_NaNMask (x : Z) :
  Z.land x NaNMask = NaNMask -> Float64.is_nan x = true.
Proof.
  intros H.
  assert (Hb : forall i, 51 <= i < 63 -> Z.testbit x i = true).
  { intros i Hi.
    assert (Hn : Z.testbit (Z.land x NaNMask) i = true).
    { rewrite H, testbit_NaNMask by lia.
      destruct (Z.leb_spec 51 i), (Z.ltb_spec i 63); trivial; lia. }
    rewrite Z.land_spec in Hn. now apply andb_true_iff in Hn. }
  unfold Float64.is_nan. apply andb_true_iff. split.
  - apply Z.eqb_eq. unfold Float64.exponent. change 0x7FF with (Z.ones 11).
    apply Z.bits_inj'. intros i Hi.
    rewrite Z.land_spec, Z.shiftr_spec, Z.testbit_ones_nonneg by lia.
    destruct (Z.ltb_spec i 11); [|apply andb_false_r].
    rewrite Hb by lia. reflexivity.
  - apply negb_true_iff, Z.eqb_neq. intros H0.
    assert (Hf : Z.testbit (Float64.fraction x) 51 = true).
    { unfold Float64.fraction. change 0xFFFFFFFFFFFFF with (Z.ones 52).
      rewrite Z.land_spec, Z.testbit_ones_nonneg, Hb by lia. reflexivity. }
    rewrite H0, Z.bits_0 in Hf. discriminate.
Qed.

Lemma IsFloat64_pack (t u : Z) : IsFloat64 (pack t u) = false.
Proof.
  unfold IsFloat64.
  now rewrite math_IsNaN_is_nan, is_nan_NaNMask by apply NaNMask_pack.
Qed.

(** Each function of the source against the common shape. *)
Lemma SetTag_pack (t : TagType) (x : Box) :
  SetTag t x = pack t (Z.land (raw x) PayloadMask).
Proof. reflexivity. Qed.

Lemma SetPayload_pack (u : Z) (x : Box) : SetPayload u x = pack (Tag x) u.
Proof. reflexivity. Qed.

Lemma NewNumber_pack (n : Z) : NewNumber n = pack TagNumber (uint64 (uint32 n)).
Proof. reflexivity. Qed.

Lemma NewBool_pack (b : bool) :
  NewBool b = pack TagBool (uint64 (uint8 (bool_byte b))).
Proof. reflexivity. Qed.

Lemma NewString_pack p s (m : Memory) :
  (NewString p s m).1 = pack tagString (uint64 p).
Proof. reflexivity. Qed.

Lemma NewArray_pack p a (m : Memory) :
  (NewArray p a m).1 = pack TagArray (uint64 p).
Proof. reflexivity. Qed.

Lemma NewObject_pack p o (m : Memory) :
  (NewObject p o m).1 = pack TagObject (uint64 p).
Proof. reflexivity. Qed.

Lemma NewNull_pack : NewNull = pack TagNull 0.
Proof. reflexivity. Qed.

Lemma land_PayloadMask (u : Z) : Z.land u PayloadMask = u mod 2 ^ 47.
Proof. change PayloadMask with (Z.ones 47). apply Z.land_ones. lia. Qed.

Lemma Tag_range (x : Box) : 0 <= Tag x < 16.
Proof.
  unfold Tag. change TagMask with (Z.ones 4).
  rewrite Z.land_ones by lia. apply Z.mod_pos_bound. lia.
Qed.

Lemma Tag_eqb_pack (t u t' : Z) : (Tag (pack t u) =? t') = (t mod 16 =? t').
Proof. now rewrite Tag_pack. Qed.

Lemma ToNumber_pack (t u : Z) : ToNumber (pack t u) = int32 u.
Proof.
  unfold ToNumber. rewrite Payload_pack, land_PayloadMask.
  unfold int32.
  replace (u mod 2 ^ 47 + 2 ^ 31) with (u + 2 ^ 31 + - (u / 2 ^ 47) * 2 ^ 15 * 2 ^ 32)
    by (pose proof (Z.div_mod u (2 ^ 47)); lia).
  now rewrite Z.mod_add by lia.
Qed.

(** *** Numbers *)

(** C1. For every int32 [n], the bounds [MinInt32] and [MaxInt32] included,
    [ToNumber (NewNumber n) = n], [IsNumber (NewNumber n)] holds and
    [IsFloat64 (NewNumber n)] does not.  The payload is the 32-bit
    two's-complement pattern of [n] copied as it is: its bits 32 to 46 are
    zero also for a negative [n], so nothing is sign-extended into them. *)
Theorem NewNumber_roundtrip (n : Z) :
  is_int32 n ->
  ToNumber (NewNumber n) = n
  /\ IsNumber (NewNumber n) = true
  /\ IsFloat64 (NewNumber n) = false
  /\ Payload (NewNumber n) = n mod 2 ^ 32.
Proof.
  intros Hn. rewrite NewNumber_pack.
  assert (Hu : uint64 (uint32 n) = uint32 n).
  { unfold uint64, uint32. apply Z.mod_small.
    pose proof (Z.mod_pos_bound n (2 ^ 32)). lia. }
  rewrite Hu. repeat split.
  - rewrite ToNumber_pack. now apply int32_uint32.
  - unfold IsNumber. now rewrite IsFloat64_pack, Tag_eqb_pack.
  - apply IsFloat64_pack.
  - rewrite Payload_pack, land_PayloadMask. unfold uint32.
    apply Z.mod_small. pose proof (Z.mod_pos_bound n (2 ^ 32)). lia.
Qed.

Lemma NewNumber_roundtrip_MinInt32 :
  is_int32 MinInt32
  /\ ToNumber (NewNumber MinInt32) = MinInt32
  /\ IsNumber (NewNumber MinInt32) = true
  /\ IsFloat64 (NewNumber MinInt32) = false
  /\ Payload (NewNumber MinInt32) = MinInt32 mod 2 ^ 32.
Proof.
  assert (H : is_int32 MinInt32) by (unfold is_int32, MinInt32; lia).
  split; [exact H | exact (NewNumber_roundtrip MinInt32 H)].
Defined.

(** The values of [TestNumberBox]. *)
Example TestNumberBox :
  map (fun n => ToNumber (NewNumber n)) [0; -1; 1; MinInt32; MaxInt32]
  = [0; -1; 1; MinInt32; MaxInt32].
Proof. vm_compute. reflexivity. Qed.

(** *** Mutators *)

Lemma Payload_idem (x : Box) : Z.land (Payload x) PayloadMask = Payload x.
Proof. unfold Payload. now rewrite <- Z.land_assoc, Z.land_diag. Qed.

Lemma Payload_SetTag (t : TagType) (x : Box) : Payload (SetTag t x) = Payload x.
Proof. unfold SetTag. fold (pack t (Payload x)). now rewrite Payload_pack, Payload_idem. Qed.

Lemma Tag_SetTag (t : TagType) (x : Box) : Tag (SetTag t x) = t mod 16.
Proof. unfold SetTag. fold (pack t (Payload x)). apply Tag_pack. Qed.

Lemma IsFloat64_SetTag (t : TagType) (x : Box) : IsFloat64 (SetTag t x) = false.
Proof. unfold SetTag. fold (pack t (Payload x)). apply IsFloat64_pack. Qed.

Lemma Tag_SetPayload (u : Z) (x : Box) : Tag (SetPayload u x) = Tag x.
Proof.
  rewrite SetPayload_pack, Tag_pack. apply Z.mod_small, Tag_range.
Qed.

Lemma Payload_SetPayload (u : Z) (x : Box) :
  Payload (SetPayload u x) = u mod 2 ^ 47.
Proof. now rewrite SetPayload_pack, Payload_pack, land_PayloadMask. Qed.

Lemma IsFloat64_SetPayload (u : Z) (x : Box) :
  IsFloat64 (SetPayload u x) = false.
Proof. rewrite SetPayload_pack. apply IsFloat64_pack. Qed.

(** C3. [SetTag] leaves the 47 payload bits as they were and [SetPayload]
    the 4 tag bits; both set every bit of the NaN mask, so the box they
    write is never a plain float, whatever box they started from.  Hence
    retagging a box as String keeps its payload, and tagging it Number
    again gives a Number box with the [ToNumber] value it had. *)
Theorem mutators_frame (x : Box) (t : TagType) (u : Z) :
  Payload (SetTag t x) = Payload x
  /\ Tag (SetPayload u x) = Tag x
  /\ Z.land (SetTag t x) NaNMask = NaNMask
  /\ Z.land (SetPayload u x) NaNMask = NaNMask
  /\ IsFloat64 (SetTag t x) = false
  /\ IsFloat64 (SetPayload u x) = false
  /\ Tag (SetTag tagString x) = tagString
  /\ Payload (SetTag tagString x) = Payload x
  /\ IsNumber (SetTag TagNumber (SetTag tagString x)) = true
  /\ ToNumber (SetTag TagNumber (SetTag tagString x)) = ToNumber x.
Proof.
  repeat split.
  - apply Payload_SetTag.
  - apply Tag_SetPayload.
  - unfold SetTag. fold (pack t (Payload x)). apply NaNMask_pack.
  - rewrite SetPayload_pack. apply NaNMask_pack.
  - apply IsFloat64_SetTag.
  - apply IsFloat64_SetPayload.
  - now rewrite Tag_SetTag.
  - apply Payload_SetTag.
  - unfold IsNumber. now rewrite IsFloat64_SetTag, Tag_SetTag.
  - unfold ToNumber. now rewrite !Payload_SetTag.
Qed.

(** The steps of [TestTag] and [TestPayload]. *)
Example TestTag :
  Tag (NewBool true) = TagBool
  /\ Tag (NewNumber MaxInt32) = TagNumber
  /\ Tag (SetTag tagString (NewNumber MaxInt32)) = tagString
  /\ ToNumber (SetTag TagNumber (SetTag tagString (NewNumber MaxInt32)))
     = MaxInt32.
Proof. vm_compute. auto. Qed.

Example TestPayload :
  ToNumber (NewNumber MinInt32) = MinInt32
  /\ Tag (SetPayload (uint64 MaxInt32) (NewNumber MinInt32)) = TagNumber
  /\ ToNumber (SetPayload (uint64 MaxInt32) (NewNumber MinInt32)) = MaxInt32.
Proof. vm_compute. auto. Qed.

(** C9. [SetTag] takes any [Tag] value, one of the six named tags or not,
    and checks nothing: afterwards [Tag] reads the low four bits of what
    was written, [t mod 16], and the box is not a float. *)
Theorem SetTag_any_tag (x : Box) (t : TagType) :
  Tag (SetTag t x) = t mod 16 /\ IsFloat64 (SetTag t x) = false.
Proof. split; [apply Tag_SetTag | apply IsFloat64_SetTag]. Qed.

(** A tag outside the enumeration, and one wider than four bits. *)
Example SetTag_undocumented :
  Tag (SetTag 0x9 (NewNumber 7)) = 0x9
  /\ Tag (SetTag 0x12 (NewNumber 7)) = 0x2
  /\ IsString (SetTag 0x12 (NewNumber 7)) = true.
Proof. vm_compute. auto. Qed.

(** *** Booleans and null *)

(** C6. [ToBool (NewBool true) = true] and [ToBool (NewBool false) = false];
    both boxes are boxed, not floats, and carry [TagBool]. *)
Theorem NewBool_roundtrip :
  ToBool (NewBool true) = true
  /\ ToBool (NewBool false) = false
  /\ IsFloat64 (NewBool true) = false
  /\ IsFloat64 (NewBool false) = false
  /\ Tag (NewBool true) = TagBool
  /\ Tag (NewBool false) = TagBool.
Proof. vm_compute. auto 10. Qed.

(** C7. [NewNull] is a null box, boxed with [TagNull], and its payload is
    exactly zero. *)
Theorem NewNull_null :
  IsNull NewNull = true
  /\ Payload NewNull = 0
  /\ IsFloat64 NewNull = false
  /\ Tag NewNull = TagNull.
Proof. vm_compute. auto. Qed.

(** C10. [ToBool] looks at all 47 payload bits: it answers true exactly
    when the payload is not zero.  So a box given payload 2 reads as true
    although bit 0 of its payload is clear, and a Bool box stays a Bool
    box under that [SetPayload]. *)
Theorem ToBool_whole_payload (x : Box) (b : bool) :
  (ToBool x = true <-> Payload x <> 0)
  /\ ToBool (SetPayload 2 x) = true
  /\ Z.testbit (Payload (SetPayload 2 x)) 0 = false
  /\ IsBool (SetPayload 2 (NewBool b)) = true
  /\ ToBool (SetPayload 2 (NewBool b)) = true.
Proof.
  assert (Hp : forall y, Payload (SetPayload 2 y) = 2).
  { intros y. now rewrite Payload_SetPayload. }
  assert (Ht : forall y, ToBool (SetPayload 2 y) = true).
  { intros y. unfold ToBool. now rewrite Hp. }
  repeat split.
  - unfold ToBool. intros H. apply negb_true_iff, Z.eqb_neq in H. congruence.
  - unfold ToBool. intros H. apply negb_true_iff, Z.eqb_neq. congruence.
  - apply Ht.
  - now rewrite Hp.
  - unfold IsBool. rewrite IsFloat64_SetPayload, Tag_SetPayload.
    destruct b; vm_compute; reflexivity.
  - apply Ht.
Qed.

(** *** Type predicates *)

Lemma predicates_pack (t u : Z) :
  predicates (pack t u) =
    [false; t mod 16 =? TagNumber; t mod 16 =? TagBool;
     t mod 16 =? tagString; t mod 16 =? TagArray; t mod 16 =? TagObject;
     t mod 16 =? TagNull].
Proof.
  unfold predicates, IsNumber, IsBool, IsString, IsArray, IsObject, IsNull.
  now rewrite IsFloat64_pack, !Tag_eqb_pack.
Qed.

Lemma predicates_float (x : Box) :
  IsFloat64 x = true ->
  predicates x = [true; false; false; false; false; false; false].
Proof.
  intros H.
  unfold predicates, IsNumber, IsBool, IsString, IsArray, IsObject, IsNull.
  now rewrite H.
Qed.

(** C4. Of the seven predicates [IsFloat64], [IsNumber], [IsBool],
    [IsString], [IsArray], [IsObject], [IsNull], exactly one answers true
    on a box returned by a constructor: [NewFloat] of a float that is not a
    NaN, [NewNumber], [NewBool], [NewString], [NewArray], [NewObject] or
    [NewNull]. *)
Theorem constructed_exactly_one (x : Box) :
  constructed x -> count_true (predicates x) = 1%nat.
Proof.
  destruct 1 as [f Hf Hnan | n Hn | b | p s m Hp | p a m Hp | p o m Hp | ].
  - rewrite predicates_float; [reflexivity|].
    unfold IsFloat64, NewFloat. now rewrite Hnan.
  - now rewrite NewNumber_pack, predicates_pack.
  - now rewrite NewBool_pack, predicates_pack.
  - now rewrite NewString_pack, predicates_pack.
  - now rewrite NewArray_pack, predicates_pack.
  - now rewrite NewObject_pack, predicates_pack.
  - now rewrite NewNull_pack, predicates_pack.
Qed.

Lemma constructed_exactly_one_number :
  constructed (NewNumber 12)
  /\ count_true (predicates (NewNumber 12)) = 1%nat.
Proof.
  assert (H : constructed (NewNumber 12)).
  { apply constructed_number. unfold is_int32. lia. }
  split; [exact H | exact (constructed_exactly_one (NewNumber 12) H)].
Defined.

(** One box of each constructor, with the predicate that holds of it. *)
Example predicates_by_constructor :
  predicates (NewFloat 0x3FF8000000000000)
    = [true; false; false; false; false; false; false]
  /\ predicates (NewNumber MinInt32)
    = [false; true; false; false; false; false; false]
  /\ predicates (NewBool true)
    = [false; false; true; false; false; false; false]
  /\ predicates (NewString test_slot "Once" ∅).1
    = [false; false; false; true; false; false; false]
  /\ predicates (NewArray test_slot arraySource test_memory).1
    = [false; false; false; false; true; false; false]
  /\ predicates (NewObject test_slot objectSource test_memory).1
    = [false; false; false; false; false; true; false]
  /\ predicates NewNull
    = [false; false; false; false; false; false; true].
Proof. vm_compute. auto 10. Qed.

(** C2. [IsPointer] answers true on a boxed value tagged Array or Object
    and on no other: a String box, although [NewString] stores a pointer
    in it as [NewArray] and [NewObject] do, is not a pointer for
    [IsPointer], while [IsString] holds of it. *)
Theorem IsPointer_NewString (p : Z) (s : string) (m : Memory) :
  IsString (NewString p s m).1 = true
  /\ IsPointer (NewString p s m).1 = false
  /\ IsPointer (NewArray p (mkArray 0 0 0) m).1 = true
  /\ IsPointer (NewObject p 0 m).1 = true.
Proof.
  rewrite NewString_pack, NewArray_pack, NewObject_pack.
  unfold IsString, IsPointer.
  now rewrite !IsFloat64_pack, !Tag_eqb_pack.
Qed.

(** *** Floats *)

Lemma collides_is_nan (f : Z) :
  collides_with_boxed_encoding f = (Z.land f NaNMask =? NaNMask).
Proof.
  unfold collides_with_boxed_encoding.
  destruct (Z.eqb_spec (Z.land f NaNMask) NaNMask) as [H|H].
  - now rewrite is_nan_NaNMask.
  - apply andb_false_r.
Qed.

(** C5, as stated, fails: the signaling NaN [0x7FF0000000000001] does not
    carry the NaN mask, so it does not collide with the boxed encoding, and
    still [IsFloat64] rejects it. *)
Lemma IsFloat64_NewFloat_signaling_NaN :
  ~ (forall f : Z,
       is_uint64 f ->
       collides_with_boxed_encoding f = false ->
       IsFloat64 (NewFloat f) = true).
Proof.
  intros H. specialize (H signaling_NaN).
  assert (Hr : is_uint64 signaling_NaN)
    by (unfold is_uint64, signaling_NaN; lia).
  specialize (H Hr eq_refl). vm_compute in H. discriminate.
Qed.

(** C5, amended. [NewFloat] hands back the bits it is given, for every
    float64; [IsFloat64 (NewFloat f)] is true exactly when [f] is not a
    NaN.  It is false on every NaN, quiet or signaling, of either sign:
    on those that carry the NaN mask, and on the others as well. *)
Theorem IsFloat64_NewFloat (f : Z) :
  ToFloat (NewFloat f) = f
  /\ IsFloat64 (NewFloat f) = negb (Float64.is_nan f)
  /\ collides_with_boxed_encoding f && IsFloat64 (NewFloat f) = false.
Proof.
  assert (H : IsFloat64 (NewFloat f) = negb (Float64.is_nan f)).
  { unfold IsFloat64, NewFloat. now rewrite math_IsNaN_is_nan. }
  repeat split; [exact H|].
  rewrite H. unfold collides_with_boxed_encoding.
  destruct (Float64.is_nan f); cbn [negb andb];
    [apply andb_false_r | reflexivity].
Qed.

(** Floats of every class: 1.5, the two zeros, an infinity, the largest
    subnormal, and four NaNs. *)
Example IsFloat64_classes :
  map IsFloat64
    [0x3FF8000000000000; 0; 0x8000000000000000; 0x7FF0000000000000;
     0x000FFFFFFFFFFFFF; 0x7FF8000000000000; 0xFFF8000000000000;
     signaling_NaN; 0xFFF0000000000001]
  = [true; true; true; true; true; false; false; false; false].
Proof. vm_compute. reflexivity. Qed.

(** *** References *)

Lemma Payload_pack_fits (t p : Z) :
  fits_payload p -> Payload (pack t (uint64 p)) = p.
Proof.
  unfold fits_payload, PayloadMask. intros Hp.
  rewrite Payload_pack, land_PayloadMask. unfold uint64.
  rewrite (Z.mod_small p (2 ^ 64)) by lia. apply Z.mod_small. lia.
Qed.

Lemma NewArray_memory (p : Z) (a : Array) (m : Memory) :
  (NewArray p a m).2 = delete p m.
Proof. unfold NewArray. cbn [snd]. apply delete_insert_eq. Qed.

Lemma NewObject_memory (p : Z) (o : Object) (m : Memory) :
  (NewObject p o m).2 = delete p m.
Proof. unfold NewObject. cbn [snd]. apply delete_insert_eq. Qed.

(** C8. [NewArray] and [NewObject] box the address of their own
    parameter, and that slot is gone when they return; [ToArray] and
    [ToObject] read it.  On the memory a constructor leaves, unboxing has
    no defined result, also when the address fits the payload: the array
    or the map that was boxed is still where it was, every other address
    holding what it held, but the box does not lead to it. *)
Theorem reference_dead_slot
    (p : Z) (a : Array) (o : Object) (m : Memory) :
  fits_payload p ->
  (NewArray p a m).2 !! p = None
  /\ (NewObject p o m).2 !! p = None
  /\ ToArray (NewArray p a m).1 (NewArray p a m).2 = None
  /\ ToObject (NewObject p o m).1 (NewObject p o m).2 = None
  /\ (forall q : Z, q <> p -> (NewArray p a m).2 !! q = m !! q)
  /\ (forall q : Z, q <> p -> (NewObject p o m).2 !! q = m !! q).
Proof.
  intros Hp. rewrite NewArray_memory, NewObject_memory.
  assert (Hdead : delete p m !! p = None) by apply lookup_delete_eq.
  split; [exact Hdead|]. split; [exact Hdead|].
  unfold ToArray, ToObject.
  rewrite NewArray_pack, NewObject_pack, !Payload_pack_fits by exact Hp.
  rewrite Hdead. split; [reflexivity|]. split; [reflexivity|].
  split; intros q Hq; now rewrite lookup_delete_ne.
Qed.

Lemma reference_dead_slot_tests :
  fits_payload test_slot
  /\ ToArray (NewArray test_slot arraySource test_memory).1
             (NewArray test_slot arraySource test_memory).2 = None
  /\ ToObject (NewObject test_slot objectSource test_memory).1
              (NewObject test_slot objectSource test_memory).2 = None.
Proof.
  assert (Hp : fits_payload test_slot)
    by (unfold fits_payload, test_slot, PayloadMask; lia).
  split; [exact Hp|].
  pose proof (reference_dead_slot test_slot arraySource objectSource
                test_memory Hp) as (_ & _ & HA & HO & _).
  split; [exact HA | exact HO].
Defined.

(** The data of [TestArray] and [TestObject] after the constructor has
    returned: both elements and both entries are in memory as before, and
    the boxes are boxed values. *)
Example tests_referents_live :
  let (arrayBox, m) := NewArray test_slot arraySource test_memory in
  let (objectBox, m') := NewObject test_slot objectSource m in
  IsFloat64 arrayBox = false
  /\ IsFloat64 objectBox = false
  /\ ToNumber <$> index m' arraySource 0 = Some 1
  /\ ToNumber <$> index m' arraySource 1 = Some 2
  /\ map_len m' objectSource = Some 2
  /\ ToNumber <$> map_index m' objectSource "key1" = Some 1
  /\ ToNumber <$> map_index m' objectSource "key2" = Some 2.
Proof. vm_compute. auto 10. Qed.

(** * Further properties of the codec *)

(** *** Layout of a boxed word *)

Lemma lor_disjoint (a b : Z) : Z.land a b = 0 -> Z.lor a b = a + b.
Proof.
  intros H. rewrite <- Z.lxor_lor by exact H.
  symmetry. now apply Z.add_nocarry_lxor.
Qed.

Lemma pack_mod (t u : Z) : pack t (u mod 2 ^ 47) = pack t u.
Proof.
  unfold pack. f_equal. rewrite !land_PayloadMask. apply Z.mod_mod. lia.
Qed.

Lemma pack_low_tag (t u : Z) :
  Z.testbit t 16 = false -> pack t u = pack (t mod 16) u.
Proof.
  intros H16. apply Z.bits_inj'. intros i Hi.
  rewrite !testbit_pack by lia. change 16 with (2 ^ 4).
  destruct (Z.ltb_spec i 47); [reflexivity|].
  destruct (Z.ltb_spec i 51).
  - rewrite Z.testbit_mod_pow2 by lia.
    destruct (Z.ltb_spec (i - 47) 4); [reflexivity|lia].
  - destruct (Z.ltb_spec i 63); [reflexivity|].
    destruct (Z.ltb_spec i 64); [|reflexivity].
    replace (i - 47) with 16 by lia.
    rewrite H16, Z.testbit_mod_pow2 by lia. reflexivity.
Qed.

Lemma pack_sum (t u : Z) :
  0 <= t < 16 -> pack t u = NaNMask + t * 2 ^ 47 + u mod 2 ^ 47.
Proof.
  intros Ht. unfold pack, shl64, uint64, TagShift.
  rewrite land_PayloadMask, Z.shiftl_mul_pow2 by lia.
  rewrite (Z.mod_small t) by lia.
  rewrite (Z.mod_small (t * 2 ^ 47)) by lia.
  pose proof (Z.mod_pos_bound u (2 ^ 47) ltac:(lia)) as Hu.
  assert (H1 : Z.land NaNMask (t * 2 ^ 47) = 0).
  { apply Z.bits_inj'. intros i Hi.
    rewrite Z.land_spec, testbit_NaNMask, Z.bits_0 by lia.
    destruct (Z.leb_spec 51 i); [|reflexivity].
    rewrite <- Z.shiftl_mul_pow2, Z.shiftl_spec by lia.
    rewrite <- (Z.mod_small t (2 ^ 4)), Z.testbit_mod_pow2 by lia.
    destruct (Z.ltb_spec (i - 47) 4); [lia|].
    destruct (i <? 63); reflexivity. }
  rewrite (lor_disjoint _ _ H1).
  apply lor_disjoint.
  apply Z.bits_inj'. intros i Hi.
  rewrite Z.land_spec, Z.bits_0, Z.testbit_mod_pow2 by lia.
  destruct (Z.ltb_spec i 47); [|apply andb_false_r].
  change NaNMask with (0xFFF0 * 2 ^ 47).
  rewrite <- Z.mul_add_distr_r.
  rewrite Z.mul_pow2_bits_low by lia. reflexivity.
Qed.

(** X1. A box written by a mutator is the sum of its three fields: the NaN
    mask, the tag at bit 47 and the payload.  For [SetTag] this needs a
    tag of four bits; [SetPayload] always writes such a tag. *)
Theorem mutators_layout (x : Box) (t : TagType) (u : Z) :
  0 <= t < 16 ->
  SetTag t x = NaNMask + t * 2 ^ 47 + Payload x
  /\ SetPayload u x = NaNMask + Tag x * 2 ^ 47 + u mod 2 ^ 47.
Proof.
  intros Ht. split.
  - change (SetTag t x) with (pack t (Payload x)).
    rewrite pack_sum by exact Ht. f_equal.
    unfold Payload. rewrite land_PayloadMask. apply Z.mod_mod. lia.
  - rewrite SetPayload_pack. apply pack_sum, Tag_range.
Qed.

Lemma mutators_layout_bool :
  0 <= TagBool < 16
  /\ SetTag TagBool NewNull = NaNMask + TagBool * 2 ^ 47 + Payload NewNull
  /\ SetPayload 1 NewNull = NaNMask + Tag NewNull * 2 ^ 47 + 1 mod 2 ^ 47.
Proof.
  assert (H : 0 <= TagBool < 16) by (unfold TagBool; lia).
  split; [exact H | exact (mutators_layout NewNull TagBool 1 H)].
Defined.

(** X2. What the accessors return is bounded whatever the box: the payload
    and the pointer have 47 bits, the tag four, and [ToNumber] is an
    int32. *)
Theorem accessor_bounds (x : Box) :
  0 <= Payload x < 2 ^ 47
  /\ 0 <= Tag x < 16
  /\ is_int32 (ToNumber x)
  /\ fits_payload (ToPointer x).
Proof.
  assert (HP : 0 <= Payload x < 2 ^ 47).
  { unfold Payload. rewrite land_PayloadMask. apply Z.mod_pos_bound. lia. }
  split; [exact HP|]. split; [apply Tag_range|]. split.
  - unfold is_int32, ToNumber, int32.
    pose proof (Z.mod_pos_bound (Payload x + 2 ^ 31) (2 ^ 32)). lia.
  - unfold fits_payload, ToPointer, PayloadMask. lia.
Qed.

(** *** Mutators, composed *)

(** X3. [SetPayload] keeps the low 47 bits of its argument and drops the
    rest without a word: two arguments that differ by a multiple of 2^47
    write the same box. *)
Theorem SetPayload_truncates (x : Box) (u k : Z) :
  Payload (SetPayload u x) = u mod 2 ^ 47
  /\ SetPayload (u + k * 2 ^ 47) x = SetPayload u x.
Proof.
  split; [apply Payload_SetPayload|].
  rewrite !SetPayload_pack, <- (pack_mod _ (u + k * 2 ^ 47)).
  rewrite Z.mod_add by lia. apply pack_mod.
Qed.

(** X4. An int32 written with [SetPayload], converted to [uint64] as in
    [TestPayload], is read back by [ToNumber] on any box, negative values
    included; the tag is the one the box had. *)
Theorem SetPayload_int32 (x : Box) (n : Z) :
  is_int32 n ->
  ToNumber (SetPayload (uint64 n) x) = n
  /\ Tag (SetPayload (uint64 n) x) = Tag x.
Proof.
  intros Hn. split; [|apply Tag_SetPayload].
  rewrite SetPayload_pack, ToNumber_pack. unfold int32, uint64.
  replace (n mod 2 ^ 64 + 2 ^ 31)
    with (n + 2 ^ 31 + - (n / 2 ^ 64) * 2 ^ 32 * 2 ^ 32)
    by (pose proof (Z.div_mod n (2 ^ 64)); lia).
  rewrite Z.mod_add by lia.
  unfold is_int32 in Hn. rewrite Z.mod_small by lia. lia.
Qed.

Lemma SetPayload_int32_minus_one :
  is_int32 (-1)
  /\ ToNumber (SetPayload (uint64 (-1)) (NewBool true)) = -1
  /\ Tag (SetPayload (uint64 (-1)) (NewBool true)) = Tag (NewBool true).
Proof.
  assert (H : is_int32 (-1)) by (unfold is_int32; lia).
  split; [exact H | exact (SetPayload_int32 (NewBool true) (-1) H)].
Defined.

(** X5. The last write wins: a second [SetTag] or [SetPayload] leaves no
    trace of the first. *)
Theorem mutators_override (x : Box) (t1 t2 : TagType) (u1 u2 : Z) :
  SetTag t2 (SetTag t1 x) = SetTag t2 x
  /\ SetPayload u2 (SetPayload u1 x) = SetPayload u2 x.
Proof.
  split.
  - change (SetTag t2 (SetTag t1 x)) with (pack t2 (Payload (SetTag t1 x))).
    now rewrite Payload_SetTag.
  - change (SetPayload u2 (SetPayload u1 x))
      with (pack (Tag (SetPayload u1 x)) u2).
    now rewrite Tag_SetPayload.
Qed.

(** X6. With a tag of four bits the two mutators commute, and after both
    nothing is left of the box they were applied to. *)
Theorem mutators_commute (x y : Box) (t : TagType) (u : Z) :
  0 <= t < 16 ->
  SetTag t (SetPayload u x) = SetPayload u (SetTag t x)
  /\ SetTag t (SetPayload u x) = SetTag t (SetPayload u y).
Proof.
  intros Ht.
  assert (H : forall z, SetTag t (SetPayload u z) = pack t u).
  { intros z.
    change (SetTag t (SetPayload u z))
      with (pack t (Payload (SetPayload u z))).
    rewrite Payload_SetPayload. apply pack_mod. }
  split; [|now rewrite !H].
  rewrite H, SetPayload_pack, Tag_SetTag.
  now rewrite Z.mod_small by exact Ht.
Qed.

Lemma mutators_commute_array :
  0 <= TagArray < 16
  /\ SetTag TagArray (SetPayload 7 NewNull)
     = SetPayload 7 (SetTag TagArray NewNull)
  /\ SetTag TagArray (SetPayload 7 NewNull)
     = SetTag TagArray (SetPayload 7 (NewBool true)).
Proof.
  assert (H : 0 <= TagArray < 16) by (unfold TagArray; lia).
  split; [exact H|].
  exact (mutators_commute NewNull (NewBool true) TagArray 7 H).
Defined.

(** X7. Of a tag value wider than four bits, bits 4 to 15 vanish under the
    NaN mask and bit 16 lands in the sign bit of the box; the bits above
    are shifted out.  So a tag with bit 16 clear writes the same box as
    its low four bits. *)
Theorem SetTag_wide_tag (x : Box) (t : TagType) :
  Z.testbit t 16 = false ->
  SetTag t x = SetTag (t mod 16) x
  /\ Z.testbit (SetTag t x) 63 = false.
Proof.
  intros H16.
  change (SetTag t x) with (pack t (Payload x)).
  change (SetTag (t mod 16) x) with (pack (t mod 16) (Payload x)).
  split; [now apply pack_low_tag|].
  rewrite testbit_pack by lia. exact H16.
Qed.

Lemma SetTag_wide_tag_0x12 :
  Z.testbit 0x12 16 = false
  /\ SetTag 0x12 NewNull = SetTag (0x12 mod 16) NewNull
  /\ Z.testbit (SetTag 0x12 NewNull) 63 = false.
Proof.
  split; [reflexivity | exact (SetTag_wide_tag NewNull 0x12 eq_refl)].
Defined.

(** X8. The sign bit of the box [SetTag] writes is bit 16 of the tag
    value: a tag of 0x10000 reads back as tag 0 on a box whose sign bit is
    set. *)
Theorem SetTag_sign_bit (x : Box) (t : TagType) :
  Z.testbit (SetTag t x) 63 = Z.testbit t 16
  /\ Tag (SetTag 0x10000 x) = 0
  /\ Z.testbit (SetTag 0x10000 x) 63 = true.
Proof.
  assert (H : forall t', Z.testbit (SetTag t' x) 63 = Z.testbit t' 16).
  { intros t'. change (SetTag t' x) with (pack t' (Payload x)).
    now rewrite testbit_pack by lia. }
  split; [apply H|]. split; [now rewrite Tag_SetTag|].
  now rewrite H.
Qed.

(** X9. The typed accessors read the payload and never the tag: a box
    retagged with [SetTag] gives every accessor the value it gave before,
    right tag or wrong. *)
Theorem accessors_ignore_tag (x : Box) (t : TagType) (m : Memory) :
  ToNumber (SetTag t x) = ToNumber x
  /\ ToBool (SetTag t x) = ToBool x
  /\ ToPointer (SetTag t x) = ToPointer x
  /\ ToString (SetTag t x) m = ToString x m
  /\ ToArray (SetTag t x) m = ToArray x m
  /\ ToObject (SetTag t x) m = ToObject x m.
Proof.
  unfold ToNumber, ToBool, ToPointer, ToString, ToArray, ToObject.
  rewrite Payload_SetTag. auto 10.
Qed.

(** *** Boxes of the constructors *)

Lemma pack_canonical (t u : Z) :
  0 <= t < 16 -> pack (Tag (pack t u)) (Payload (pack t u)) = pack t u.
Proof.
  intros Ht. rewrite Tag_pack, Payload_pack, land_PayloadMask.
  rewrite (Z.mod_small t) by exact Ht. apply pack_mod.
Qed.

Lemma constructed_boxed (x : Box) :
  constructed x -> IsFloat64 x = false ->
  exists t u, 0 <= t < 16 /\ x = pack t u.
Proof.
  destruct 1 as [f Hf Hnan | n Hn | b | p s m Hp | p a m Hp | p o m Hp | ];
    intros Hbox.
  - unfold IsFloat64, NewFloat in Hbox. rewrite Hnan in Hbox. discriminate.
  - eexists _, _. split; [|apply NewNumber_pack]. unfold TagNumber. lia.
  - eexists _, _. split; [|apply NewBool_pack]. unfold TagBool. lia.
  - eexists _, _. split; [|apply NewString_pack]. unfold tagString. lia.
  - eexists _, _. split; [|apply NewArray_pack]. unfold TagArray. lia.
  - eexists _, _. split; [|apply NewObject_pack]. unfold TagObject. lia.
  - eexists _, _. split; [|apply NewNull_pack]. unfold TagNull. lia.
Qed.

(** X10. A boxed value returned by a constructor is determined by its tag
    and its payload: it is the NaN mask plus the tag at bit 47 plus the
    payload, a quiet NaN of positive sign, and writing its own tag or its
    own payload back with a mutator changes nothing. *)
Theorem constructed_canonical (x : Box) :
  constructed x ->
  IsFloat64 x = false ->
  x = NaNMask + Tag x * 2 ^ 47 + Payload x
  /\ NaNMask <= x < 2 ^ 63
  /\ SetTag (Tag x) x = x
  /\ SetPayload (Payload x) x = x.
Proof.
  intros Hc Hbox.
  destruct (constructed_boxed x Hc Hbox) as (t & u & Ht & ->).
  assert (Hsum : pack t u = NaNMask + Tag (pack t u) * 2 ^ 47
                            + Payload (pack t u)).
  { rewrite Tag_pack, Payload_pack, land_PayloadMask.
    rewrite (Z.mod_small t) by exact Ht. now apply pack_sum. }
  split; [exact Hsum|]. split; [|split].
  - rewrite Hsum.
    pose proof (Tag_range (pack t u)) as HT.
    assert (HP : 0 <= Payload (pack t u) < 2 ^ 47).
    { unfold Payload. rewrite land_PayloadMask. apply Z.mod_pos_bound. lia. }
    unfold NaNMask. lia.
  - change (SetTag (Tag (pack t u)) (pack t u))
      with (pack (Tag (pack t u)) (Payload (pack t u))).
    now apply pack_canonical.
  - rewrite SetPayload_pack. now apply pack_canonical.
Qed.

Lemma constructed_canonical_bool :
  constructed (NewBool true)
  /\ IsFloat64 (NewBool true) = false
  /\ NewBool true
     = NaNMask + Tag (NewBool true) * 2 ^ 47 + Payload (NewBool true)
  /\ NaNMask <= NewBool true < 2 ^ 63
  /\ SetTag (Tag (NewBool true)) (NewBool true) = NewBool true
  /\ SetPayload (Payload (NewBool true)) (NewBool true) = NewBool true.
Proof.
  assert (Hc : constructed (NewBool true)) by apply constructed_bool.
  assert (Hb : IsFloat64 (NewBool true) = false)
    by (vm_compute; reflexivity).
  split; [exact Hc|]. split; [exact Hb|].
  exact (constructed_canonical (NewBool true) Hc Hb).
Defined.

(** A NaN of negative sign with tag Number is a Number box, but not one a
    constructor returns: [SetPayload] with its own payload clears the
    sign. *)
Example negative_NaN_not_canonical :
  let x := 0xFFF8800000000007 in
  IsNumber x = true /\ ToNumber x = 7
  /\ SetPayload (Payload x) x = NewNumber 7
  /\ SetPayload (Payload x) x <> x.
Proof. vm_compute. repeat split; congruence. Qed.

(** X11. On every 64-bit pattern at most one of the seven predicates
    holds.  Exactly one does when the pattern is a float or carries one of
    the six tags; on every NaN whose tag is none of the six, such as the
    NaN of [math.NaN()], none does: it is neither a float nor a box of any
    type. *)
Theorem predicates_at_most_one (x : Box) :
  (count_true (predicates x) <= 1)%nat
  /\ count_true (predicates x)
     = (if IsFloat64 x || documented_tag (Tag x) then 1 else 0)%nat
  /\ IsFloat64 go_NaN || documented_tag (Tag go_NaN) = false.
Proof.
  assert (H : count_true (predicates x)
              = (if IsFloat64 x || documented_tag (Tag x) then 1 else 0)%nat).
  { unfold predicates, documented_tag,
      IsNumber, IsBool, IsString, IsArray, IsObject, IsNull.
    generalize (Tag x). intros tg.
    destruct (IsFloat64 x); cbn [negb andb orb count_true]; [reflexivity|].
    unfold TagNumber, TagBool, tagString, TagArray, TagObject, TagNull.
    destruct (Z.eqb_spec tg 1), (Z.eqb_spec tg 3), (Z.eqb_spec tg 2),
      (Z.eqb_spec tg 4), (Z.eqb_spec tg 5), (Z.eqb_spec tg 15);
      cbn [Nat.add orb]; try reflexivity; lia. }
  split; [|split; [exact H | vm_compute; reflexivity]].
  rewrite H. destruct (IsFloat64 x || documented_tag (Tag x)); lia.
Qed.


Lemma ToNumber_NewNumber (n : Z) : is_int32 n -> ToNumber (NewNumber n) = n.
Proof.
  intros Hn. rewrite NewNumber_pack, ToNumber_pack.
  unfold uint64. rewrite (Z.mod_small (uint32 n)).
  - now apply int32_uint32.
  - unfold uint32. pose proof (Z.mod_pos_bound n (2 ^ 32)). lia.
Qed.

(** X13. [NewNumber] is injective on the int32 values and [NewBool] on the
    booleans: equal boxes hold equal values. *)
Theorem constructors_injective (n1 n2 : Z) (b1 b2 : bool) :
  is_int32 n1 -> is_int32 n2 ->
  (NewNumber n1 = NewNumber n2 -> n1 = n2)
  /\ (NewBool b1 = NewBool b2 -> b1 = b2).
Proof.
  intros H1 H2. split; intros Heq.
  - rewrite <- (ToNumber_NewNumber n1 H1), <- (ToNumber_NewNumber n2 H2).
    now rewrite Heq.
  - destruct b1, b2; trivial; vm_compute in Heq; discriminate.
Qed.

Lemma constructors_injective_bounds :
  is_int32 MinInt32 /\ is_int32 MaxInt32
  /\ (NewNumber MinInt32 = NewNumber MaxInt32 -> MinInt32 = MaxInt32)
  /\ (NewBool true = NewBool false -> true = false).
Proof.
  assert (H1 : is_int32 MinInt32) by (unfold is_int32, MinInt32; lia).
  assert (H2 : is_int32 MaxInt32) by (unfold is_int32, MaxInt32; lia).
  split; [exact H1|]. split; [exact H2|].
  exact (constructors_injective MinInt32 MaxInt32 true false H1 H2).
Defined.

(** *** Reference boxes *)

Lemma uint64_mod_payload (p : Z) : uint64 p mod 2 ^ 47 = p mod 2 ^ 47.
Proof.
  unfold uint64.
  replace (p mod 2 ^ 64) with (p + - (p / 2 ^ 64) * 2 ^ 17 * 2 ^ 47)
    by (pose proof (Z.div_mod p (2 ^ 64)); lia).
  apply Z.mod_add. lia.
Qed.

Lemma Payload_pack_pointer (t p : Z) :
  Payload (pack t (uint64 p)) = p mod 2 ^ 47.
Proof. rewrite Payload_pack, land_PayloadMask. apply uint64_mod_payload. Qed.

(** X15. The pointer [ToPointer] hands out of a reference box is the
    address that was boxed with its bits from 47 up cut off: the address
    itself only when it has none. *)
Theorem ToPointer_reference
    (p : Z) (s : string) (a : Array) (o : Object) (m : Memory) :
  ToPointer (NewString p s m).1 = p mod 2 ^ 47
  /\ ToPointer (NewArray p a m).1 = p mod 2 ^ 47
  /\ ToPointer (NewObject p o m).1 = p mod 2 ^ 47
  /\ (ToPointer (NewArray p a m).1 = p <-> fits_payload p).
Proof.
  unfold ToPointer.
  rewrite NewString_pack, NewArray_pack, NewObject_pack,
    !Payload_pack_pointer.
  split; [reflexivity|]. split; [reflexivity|]. split; [reflexivity|].
  unfold fits_payload, PayloadMask. split.
  - intros H. pose proof (Z.mod_pos_bound p (2 ^ 47)). lia.
  - intros H. apply Z.mod_small. lia.
Qed.

(** X16. A reference box holds the address of the slot and nothing of the
    referent: boxes made at one address are equal whatever was boxed, and
    boxes made at different addresses that fit the payload differ. *)
Theorem reference_box_address
    (p q : Z) (a a' : Array) (m m' : Memory) :
  fits_payload p -> fits_payload q ->
  (NewArray p a m).1 = (NewArray p a' m').1
  /\ ((NewArray p a m).1 = (NewArray q a' m').1 <-> p = q).
Proof.
  intros Hp Hq. split; [reflexivity|]. split.
  - intros Heq. apply (f_equal Payload) in Heq.
    now rewrite !NewArray_pack, !Payload_pack_fits in Heq.
  - intros ->. reflexivity.
Qed.

Lemma reference_box_address_tests :
  fits_payload test_slot /\ fits_payload test_elems
  /\ (NewArray test_slot arraySource test_memory).1
     = (NewArray test_slot (mkArray 0 0 0) ∅).1
  /\ ((NewArray test_slot arraySource test_memory).1
      = (NewArray test_elems (mkArray 0 0 0) ∅).1
      <-> test_slot = test_elems).
Proof.
  assert (Hp : fits_payload test_slot)
    by (unfold fits_payload, test_slot, PayloadMask; lia).
  assert (Hq : fits_payload test_elems)
    by (unfold fits_payload, test_elems, PayloadMask; lia).
  split; [exact Hp|]. split; [exact Hq|].
  exact (reference_box_address test_slot test_elems arraySource
           (mkArray 0 0 0) test_memory ∅ Hp Hq).
Defined.
